(** * AQI forecaster: the forecast route and the training script

    A shallow embedding of [app.py] (the AQI classifier, the WAQI ground
    reading with its default, the six-hour autoregressive forecast and its
    constant fallback, the assembled response) and of the data preparation
    of [train_model.py], with the properties of the design document stated
    and settled over it.

    Conventions of the embedding.
    - A Python number is modelled by the rational it denotes ([Q]); NaN,
      infinities and binary rounding of floats are outside the model.
    - A decoded JSON document is a [json] value; a Python operation that
      can raise returns [option], [None] standing for the exception.
    - A naive [datetime] is the number of seconds since 0001-01-01 00:00,
      a Monday; the successive readings of [datetime.now()] within one
      request are given by a function [clock : nat -> datetime].
    - The trained estimator is a function from the feature row to an
      optional prediction, [None] standing for a raised exception. *)

From Stdlib Require Import ZArith QArith List String Ascii Bool Lia Lqa.
Import ListNotations.

Set Warnings "-register-all".

(** ** Numbers *)

Module Num.

Definition Qlt_bool (x y : Q) : bool := negb (Qle_bool y x).

(** [max(0, x)]: Python keeps the first argument unless the second is
    strictly greater. *)
Definition max0 (x : Q) : Q := if Qlt_bool 0 x then x else 0.

(** Nearest integer, ties to the even one. *)
Definition round_half_even (q : Q) : Z :=
  let n := Qnum q in
  let d := Zpos (Qden q) in
  let f := (n / d)%Z in
  match (2 * (n mod d) ?= d)%Z with
  | Lt => f
  | Gt => (f + 1)%Z
  | Eq => if Z.even f then f else (f + 1)%Z
  end.

(** [round(x, 2)]. *)
Definition round2 (q : Q) : Q := Qred (round_half_even (q * 100) # 100).

End Num.

Export Num.

(** ** The AQI classifier *)

Record AQILevel := mkLevel { level : string; color : string }.

Definition Unknown := mkLevel "Unknown" "#aaaaaa".
Definition Good := mkLevel "Good" "#00e400".
Definition Moderate := mkLevel "Moderate" "#ffff00".
Definition UnhealthySensitive := mkLevel "Unhealthy for Sensitive Groups" "#ff7e00".
Definition Unhealthy := mkLevel "Unhealthy" "#ff0000".
Definition VeryUnhealthy := mkLevel "Very Unhealthy" "#8f3f97".
Definition Hazardous := mkLevel "Hazardous" "#7e0023".

(** [get_aqi_level(pm25)]; [None] is Python's [None]. *)
Definition get_aqi_level (pm25 : option Q) : AQILevel :=
  match pm25 with
  | None => Unknown
  | Some x =>
      if Qlt_bool x 0 then Unknown
      else if Qle_bool x 12 then Good
      else if Qle_bool x (354 # 10) then Moderate
      else if Qle_bool x (554 # 10) then UnhealthySensitive
      else if Qle_bool x (1504 # 10) then Unhealthy
      else if Qle_bool x (2504 # 10) then VeryUnhealthy
      else Hazardous
  end.

(** ** Decoded JSON and the Python operations used on it *)

Inductive json : Type :=
| JNull
| JBool (b : bool)
| JNum (q : Q)
| JStr (s : string)
| JArr (l : list json)
| JObj (kvs : list (string * json)).

(** [let? x := e except h in k]: run [e]; when it raises, the enclosing
    [try] ends with [h], otherwise go on with [k]. *)
Notation "'let?' x := e 'except' h 'in' k" :=
  (match e with Some x => k | None => h end)
  (at level 10, x name, e at level 100, h at level 100, k at level 200,
   only parsing).

Module Py.

Fixpoint assoc (k : string) (kvs : list (string * json)) : option json :=
  match kvs with
  | [] => None
  | (k', v) :: rest => if String.eqb k k' then Some v else assoc k rest
  end.

Definition is_some {A} (o : option A) : bool :=
  match o with Some _ => true | None => false end.

Definition eq_str (x : json) (s : string) : bool :=
  match x with JStr s' => String.eqb s' s | _ => false end.

(** [d[k]] for a string key: only a dict holding the key answers. *)
Definition getitem (d : json) (k : string) : option json :=
  match d with JObj kvs => assoc k kvs | _ => None end.

(** [x[0]]. *)
Definition getitem0 (x : json) : option json :=
  match x with
  | JArr (v :: _) => Some v
  | JStr (String c _) => Some (JStr (String c EmptyString))
  | _ => None
  end.

(** [d.get(k, default)]: an attribute of dicts only. *)
Definition get (d : json) (k : string) (default : json) : option json :=
  match d with
  | JObj kvs => Some (match assoc k kvs with Some v => v | None => default end)
  | _ => None
  end.

(** [k in x]: key of a dict, element of a list, substring of a string. *)
Definition contains (k : string) (x : json) : option bool :=
  match x with
  | JObj kvs => Some (is_some (assoc k kvs))
  | JArr l => Some (existsb (fun v => eq_str v k) l)
  | JStr s => Some (is_some (String.index 0 k s))
  | _ => None
  end.

Definition truthy (x : json) : bool :=
  match x with
  | JNull => false
  | JBool b => b
  | JNum q => negb (Qeq_bool q 0)
  | JStr s => negb (String.eqb s EmptyString)
  | JArr l => match l with [] => false | _ => true end
  | JObj kvs => match kvs with [] => false | _ => true end
  end.

(** The value of a Python number; [bool] is a subtype of [int]. *)
Definition as_number (x : json) : option Q :=
  match x with
  | JNum q => Some q
  | JBool b => Some (if b then 1 else 0)
  | _ => None
  end.

(** [round(x, 2)]: a [TypeError] on anything but a number. *)
Definition round2 (x : json) : option Q :=
  match as_number x with Some q => Some (Num.round2 q) | None => None end.

End Py.

(** ** Ground air quality: the WAQI reading and its default *)

Inductive waqi_query :=
| FeedCity (city : json)
| FeedGeo (lat lon : Q).

Record ground_state := mkGround { pm25_value : json; location_name : json }.

Definition default_ground : ground_state :=
  mkGround (JNum 25) (JStr "Regional Estimate").

(** The inner [try]: [city] stays [None] unless the reverse geocoder
    answered with a non-empty result list. [rg] is the decoded answer,
    [None] when the request, its status or its decoding raised. *)
Definition reverse_geocode (rg : option json) : json :=
  let? rg_data := rg except JNull in
  let? results := Py.get rg_data "results" JNull except JNull in
  if Py.truthy results then
    let? results' := Py.getitem rg_data "results" except JNull in
    let? first := Py.getitem0 results' except JNull in
    let? name := Py.get first "name" JNull except JNull in
    name
  else JNull.

Definition waqi_url (city : json) (lat lon : Q) : waqi_query :=
  if Py.truthy city then FeedCity city else FeedGeo lat lon.

(** Step 2 of the route. [waqi] answers a feed query with the decoded
    document, [None] when the request, its status or its decoding raised.
    An exception anywhere leaves the two variables as they are then. *)
Definition fetch_ground (lat lon : Q) (rg : option json)
    (waqi : waqi_query -> option json) : ground_state :=
  let st0 := default_ground in
  let city := reverse_geocode rg in
  let? waqi_json := waqi (waqi_url city lat lon) except st0 in
  let? status := Py.get waqi_json "status" JNull except st0 in
  if Py.eq_str status "ok" then
    let? has_data := Py.contains "data" waqi_json except st0 in
    if has_data then
      let? waqi_data := Py.getitem waqi_json "data" except st0 in
      let? iaqi := Py.get waqi_data "iaqi" (JObj []) except st0 in
      let? has_pm25 := Py.contains "pm25" iaqi except st0 in
      if has_pm25 then
        let? iaqi' := Py.getitem waqi_data "iaqi" except st0 in
        let? entry := Py.getitem iaqi' "pm25" except st0 in
        let? v := Py.getitem entry "v" except st0 in
        let st1 := mkGround v (location_name st0) in
        let? city_info := Py.get waqi_data "city" (JObj []) except st1 in
        let? name := Py.get city_info "name" (JStr "Unknown Station") except st1 in
        mkGround v name
      else st0
    else st0
  else st0.

(** The reading the WAQI feed offers, by the path the route follows:
    [data.iaqi.pm25.v] of a document whose [status] is ["ok"]. *)
Definition waqi_reading (doc : option json) : option json :=
  match doc with
  | Some (JObj top) =>
      match Py.assoc "status" top, Py.assoc "data" top with
      | Some (JStr s), Some (JObj data) =>
          if String.eqb s "ok" then
            match Py.assoc "iaqi" data with
            | Some (JObj iaqi) =>
                match Py.assoc "pm25" iaqi with
                | Some (JObj entry) => Py.assoc "v" entry
                | _ => None
                end
            | _ => None
            end
          else None
      | _, _ => None
      end
  | _ => None
  end.

(** ** Naive local date-times *)

Definition datetime := Z.

Module DT.

(** [t + timedelta(hours=h)]. *)
Definition add_hours (t : datetime) (h : Z) : datetime := (t + 3600 * h)%Z.

Definition hour_of (t : datetime) : Z := ((t / 3600) mod 24)%Z.
Definition minute_of (t : datetime) : Z := ((t / 60) mod 60)%Z.

(** [t.weekday()], Monday being 0. *)
Definition weekday (t : datetime) : Z := ((t / 86400) mod 7)%Z.

Definition digit (d : Z) : ascii := ascii_of_nat (48 + Z.to_nat d).

Definition two_digits (n : Z) : string :=
  String (digit (n / 10)) (String (digit (n mod 10)) EmptyString).

(** [t.strftime("%H:%M")]. *)
Definition strftime_HM (t : datetime) : string :=
  (two_digits (hour_of t) ++ ":" ++ two_digits (minute_of t))%string.

End DT.

(** ** The forecast *)

(** One entry of [forecast_results]. *)
Module Step.
Record t := mk { hour : string; aqi : Q }.
End Step.

(** The one-row frame [current_features], in [feature_order]. *)
Record FeatureVector := mkFeatures {
  pm25 : json;
  temperature_2m : json;
  relative_humidity_2m : json;
  wind_speed_10m : json;
  wind_direction_10m : json;
  hour : Z;
  day_of_week : Z
}.

(** [model.predict(current_features)[0]]. *)
Definition Model := FeatureVector -> option Q.

Record loop_state := mkLoop {
  forecast_results : list Step.t;
  current_features : FeatureVector
}.

(** [for i in indices: body]; the flag tells whether the loop ran to its end.
    When the body raises the state is the one the last completed
    iteration left. *)
Fixpoint for_each {S : Type} (body : nat -> S -> option S)
    (indices : list nat) (st : S) : S * bool :=
  match indices with
  | [] => (st, true)
  | i :: rest =>
      match body i st with
      | Some st' => for_each body rest st'
      | None => (st, false)
      end
  end.

Definition range (n : nat) : list nat := seq 0 n.

(** The body of the forecasting loop. Only [model.predict] can raise, and
    it does so before anything is written. *)
Definition loop_body (model : Model) (now : datetime) (i : nat)
    (st : loop_state) : option loop_state :=
  let? next_hour_prediction := model (current_features st) except None in
  let next_hour_prediction := max0 next_hour_prediction in
  let forecast_time := DT.add_hours now (Z.of_nat i + 1) in
  let f := current_features st in
  Some (mkLoop
    (forecast_results st ++
       [Step.mk (DT.strftime_HM forecast_time) (round2 next_hour_prediction)])
    (mkFeatures (JNum next_hour_prediction)
       (temperature_2m f) (relative_humidity_2m f)
       (wind_speed_10m f) (wind_direction_10m f)
       (DT.hour_of forecast_time) (DT.weekday forecast_time))).

(** The loop over [range(horizon)], started on an empty result list. *)
Definition rollout (model : Model) (now : datetime) (horizon : nat)
    (features : FeatureVector) : loop_state * bool :=
  for_each (loop_body model now) (range horizon) (mkLoop [] features).

(** The feature state after the first [k] iterations. *)
Definition features_after (model : Model) (now : datetime) (k : nat)
    (features : FeatureVector) : FeatureVector :=
  current_features (fst (rollout model now k features)).

(** The route's horizon: [range(6)]. *)
Definition horizon : nat := 6.

(** [feature_data], with the defaults of [weather_data.get]. *)
Definition feature_data (now : datetime) (pm25_value weather_data : json)
    : option FeatureVector :=
  let? t := Py.get weather_data "temperature_2m" (JNum 18) except None in
  let? rh := Py.get weather_data "relative_humidity_2m" (JNum 60) except None in
  let? ws := Py.get weather_data "wind_speed_10m" (JNum 5) except None in
  let? wd := Py.get weather_data "wind_direction_10m" (JNum 180) except None in
  Some (mkFeatures pm25_value t rh ws wd (DT.hour_of now) (DT.weekday now)).

(** The guarded block of step 4: what [forecast_results] holds after it,
    and how many times the clock was read. A loaded estimator is truthy,
    [None] is not. *)
Definition model_forecast (model : option Model) (clock : nat -> datetime)
    (pm25_value weather_data : json) : list Step.t * nat :=
  match model with
  | None => ([], 0%nat)
  | Some m =>
      let now := clock 0%nat in
      let? features := feature_data now pm25_value weather_data
        except ([], 1%nat) in
      (forecast_results (fst (rollout m now horizon features)), 1%nat)
  end.

(** The body of the fallback loop; [c] clock readings were made before
    the loop. [round] can raise, and nothing catches it. *)
Definition fallback_body (clock : nat -> datetime) (c : nat)
    (pm25_value : json) (i : nat) (acc : list Step.t) : option (list Step.t) :=
  let forecast_time := DT.add_hours (clock (c + i)%nat) (Z.of_nat i + 1) in
  let? v := Py.round2 pm25_value except None in
  Some (acc ++ [Step.mk (DT.strftime_HM forecast_time) v]).

Definition fallback_forecast (clock : nat -> datetime) (c : nat)
    (pm25_value : json) : option (list Step.t) :=
  match for_each (fallback_body clock c pm25_value) (range horizon) [] with
  | (acc, true) => Some acc
  | (_, false) => None
  end.

(** Step 4 as a whole; [None] is an exception that leaves the route. *)
Definition generate_forecast (model : option Model) (clock : nat -> datetime)
    (pm25_value weather_data : json) : option (list Step.t) :=
  let '(results, c) := model_forecast model clock pm25_value weather_data in
  match results with
  | [] => fallback_forecast clock c pm25_value
  | _ :: _ => Some results
  end.

(** ** The route *)

Record ground_entry := mkGroundData {
  location : json;
  value : Q;
  unit : string;
  level_info : AQILevel
}.

Record response := mkResponse {
  ground_data : ground_entry;
  weather_data : json;
  satellite_data : json;
  forecast_data : list Step.t
}.

Inductive http_result :=
| Ok (r : response)
| BadRequest
| WeatherUnavailable
| InternalError.

(** [get_sensor_data]. [lat] and [lon] are the parsed query parameters,
    [weather_current] the [current] member of the weather answer ([None]
    when fetching it raised), [tempo] stands for [get_tempo_data]. *)
Definition get_sensor_data (lat lon : option Q) (weather_current : option json)
    (rg : option json) (waqi : waqi_query -> option json)
    (tempo : Q -> Q -> json) (model : option Model)
    (clock : nat -> datetime) : http_result :=
  let? lat := lat except BadRequest in
  let? lon := lon except BadRequest in
  let? weather := weather_current except WeatherUnavailable in
  let g := fetch_ground lat lon rg waqi in
  let tempo_data := tempo lat lon in
  let? forecast_results :=
    generate_forecast model clock (pm25_value g) weather
    except InternalError in
  let? v := Py.round2 (pm25_value g) except InternalError in
  let? x := Py.as_number (pm25_value g) except InternalError in
  Ok (mkResponse
        (mkGroundData (location_name g) v "µg/m³" (get_aqi_level (Some x)))
        weather tempo_data forecast_results).

(** ** Data preparation of the training script *)

Module Train.

(** A row of the merged frame; [None] is a missing value. *)
Record row := mkRow {
  date : datetime;
  pm25 : option Q;
  temperature_2m : option Q;
  relative_humidity_2m : option Q;
  wind_speed_10m : option Q;
  wind_direction_10m : option Q
}.

(** A row once the three derived columns are added. *)
Record prepared := mkPrepared {
  source : row;
  hour : Z;
  day_of_week : Z;
  pm25_next_hour : option Q
}.

(** [df.dropna(subset=['pm25'])]. *)
Definition dropna_pm25 (df : list row) : list row :=
  filter (fun r => Py.is_some (pm25 r)) df.

(** [column.shift(-1)]. *)
Definition shift_back {A} (column : list (option A)) : list (option A) :=
  match column with
  | [] => []
  | _ :: rest => rest ++ [None]
  end.

Definition add_columns (df : list row) : list prepared :=
  map (fun '(r, target) =>
         mkPrepared r (DT.hour_of (date r)) (DT.weekday (date r)) target)
      (combine df (shift_back (map pm25 df))).

Definition complete (p : prepared) : bool :=
  Py.is_some (pm25 (source p))
  && Py.is_some (temperature_2m (source p))
  && Py.is_some (relative_humidity_2m (source p))
  && Py.is_some (wind_speed_10m (source p))
  && Py.is_some (wind_direction_10m (source p))
  && Py.is_some (pm25_next_hour p).

(** [df.dropna()]: a row goes when any of its cells is missing. *)
Definition dropna (df : list prepared) : list prepared := filter complete df.

(** Section 2 of the script; [None] is [sys.exit(1)]. *)
Definition final_df (df : list row) : option (list prepared) :=
  match dropna_pm25 df with
  | [] => None
  | df' => Some (dropna (add_columns df'))
  end.

Inductive outcome :=
| Exit (code : Z)
| Saved (training_set : list prepared).

(** Sections 2 to 4; fitting and saving the estimator is [Saved]. *)
Definition train (df : list row) : outcome :=
  match final_df df with
  | None => Exit 1
  | Some final =>
      if (List.length final <? 100)%nat then Exit 1 else Saved final
  end.



End Train.

(** ** The satellite reading *)

(** What [get_tempo_data] meets outside itself: the two environment
    variables, and the answers of [earthaccess] and [xarray], [None]
    standing for a raised exception. A granule and a downloaded file
    are known by their names. *)
Record tempo_world := mkTempoWorld {
  earthdata_user : option string;
  earthdata_pass : option string;
  login_authenticated : option bool;
  search_data : Q * Q * Q * Q -> option (list string);
  download : list string -> option (list string);
  read_no2 : string -> Q -> Q -> option Q
}.

Definition tempo_answer (status : string) (value : json) : json :=
  JObj [("status"%string, JStr status); ("value"%string, value)].

(** The answer of the [except] branch: the value is [1.5e-5]. *)
Definition tempo_simulated : json :=
  tempo_answer "Simulated (Error)" (JNum (15 # 1000000)).

(** [get_tempo_data(lat, lon)]. Copying an unset variable into
    [os.environ] raises, as an empty one does at the check that follows;
    everything is inside the one [try]. *)
Definition get_tempo_data (w : tempo_world) (lat lon : Q) : json :=
  let? user := earthdata_user w except tempo_simulated in
  let? pass := earthdata_pass w except tempo_simulated in
  if (String.eqb user "" || String.eqb pass "")%bool then tempo_simulated
  else
    let? authenticated := login_authenticated w except tempo_simulated in
    if negb authenticated then tempo_answer "Auth Error" JNull
    else
      let? search_results :=
        search_data w (lon - (1 # 10), lat - (1 # 10),
                       lon + (1 # 10), lat + (1 # 10))
        except tempo_simulated in
      match search_results with
      | [] => tempo_answer "No Data Available" JNull
      | _ :: _ =>
          let? filepaths := download w search_results except tempo_simulated in
          match filepaths with
          | [] => tempo_simulated
          | path :: _ =>
              let? no2_value := read_no2 w path lat lon
                except tempo_simulated in
              tempo_answer "Real-Time" (JNum no2_value)
          end
      end.

(** ** The geocoding route *)

Module Geo.

(** [len(x)]. *)
Definition len (x : json) : option nat :=
  match x with
  | JStr s => Some (String.length s)
  | JArr l => Some (List.length l)
  | JObj kvs => Some (List.length kvs)
  | _ => None
  end.

Inductive result :=
| Found (latitude longitude : json)
| Error (message : string) (status : Z)
| Unhandled.

(** [geocode()]. [city] is the query parameter; [search] answers a name
    with the decoded document, [None] when the request, its status or
    its decoding raised a [RequestException]. Any other exception leaves
    the route unhandled. *)
Definition geocode (city : option string) (search : string -> option json)
    : result :=
  match city with
  | None | Some EmptyString => Error "City parameter is required" 400
  | Some city =>
      let? data := search city
        except Error "Failed to connect to geocoding service" 500 in
      let? has_results := Py.contains "results" data except Unhandled in
      if has_results then
        let? results := Py.getitem data "results" except Unhandled in
        let? n := len results except Unhandled in
        if (0 <? n)%nat then
          let? location := Py.getitem0 results except Unhandled in
          let? latitude := Py.getitem location "latitude" except Unhandled in
          let? longitude := Py.getitem location "longitude"
            except Unhandled in
          Found latitude longitude
        else Error "City not found" 404
      else Error "City not found" 404
  end.

End Geo.

(** ** Vocabulary of the statements *)

(** The four weather cells of two feature rows agree. *)
Definition same_weather (f g : FeatureVector) : Prop :=
  temperature_2m f = temperature_2m g /\
  relative_humidity_2m f = relative_humidity_2m g /\
  wind_speed_10m f = wind_speed_10m g /\
  wind_direction_10m f = wind_direction_10m g.

(** The label the [i]-th iteration (from 0) writes for a rollout begun at
    [now]: [now] plus [i + 1] hours, as ["%H:%M"]. *)
Definition label (now : datetime) (i : nat) : string :=
  DT.strftime_HM (DT.add_hours now (Z.of_nat i + 1)).

(** The member found by following [path] through nested objects. *)
Fixpoint json_path (path : list string) (x : json) : option json :=
  match path with
  | [] => Some x
  | k :: rest =>
      match Py.getitem x k with
      | Some y => json_path rest y
      | None => None
      end
  end.

(** The rank of a level on the scale from Good to Hazardous; the first
    match of the level's name decides, Unknown and anything else rank 0. *)
Definition severity (l : AQILevel) : nat :=
  if String.eqb (level l) "Good" then 1
  else if String.eqb (level l) "Moderate" then 2
  else if String.eqb (level l) "Unhealthy for Sensitive Groups" then 3
  else if String.eqb (level l) "Unhealthy" then 4
  else if String.eqb (level l) "Very Unhealthy" then 5
  else if String.eqb (level l) "Hazardous" then 6
  else 0.

(** An estimator that never raises. *)
Definition always_answers (m : Model) : Prop :=
  forall f, exists raw, m f = Some raw.


(** ** Sample inputs *)

Module Sample.

(** [days] whole days after 0001-01-01, then a time of day. *)
Definition at_time (days h m s : Z) : datetime :=
  (days * 86400 + h * 3600 + m * 60 + s)%Z.

(** 2024-01-01, a Monday, is day 738885. *)
Definition monday_noon : datetime := at_time 738885 12 0 0.

Definition steady_clock : nat -> datetime := fun _ => monday_noon.

(** A clock that passes from 13:59:59 to 14:00:00 between its first
    and its second reading. *)
Definition ticking_clock : nat -> datetime :=
  fun k => match k with
           | O => at_time 738885 13 59 59
           | _ => at_time 738885 14 0 0
           end.

(** An empty [current] object: every weather default applies. *)
Definition no_weather : json := JObj [].

Definition features : FeatureVector :=
  mkFeatures (JNum 25) (JNum 18) (JNum 60) (JNum 5) (JNum 180) 12 0.

(** An estimator that always answers one third. *)
Definition third_model : Model := fun _ => Some (1 # 3).

(** An estimator that always answers below zero. *)
Definition negative_model : Model := fun _ => Some (- (7 # 2)).

(** An estimator that adds ten, and raises once its input exceeds 30. *)
Definition flaky_model : Model :=
  fun f => match pm25 f with
           | JNum q => if Qle_bool q 30 then Some (q + 10) else None
           | _ => None
           end.


Definition no_tempo : Q -> Q -> json := fun _ _ => JNull.


(** A WAQI answer with a reading and a [city] member that is [null]. *)
Definition waqi_with_null_city : waqi_query -> option json :=
  fun _ => Some (JObj [("status", JStr "ok");
                       ("data", JObj [("iaqi", JObj [("pm25", JObj [("v", JNum 42)])]);
                                      ("city", JNull)])])%string.

(** A WAQI answer whose reading is the string ["-"]. *)
Definition waqi_with_dash : waqi_query -> option json :=
  fun _ => Some (JObj [("status", JStr "ok");
                       ("data", JObj [("iaqi", JObj [("pm25", JObj [("v", JStr "-")])])])])%string.

(** A reverse-geocoder answer naming Delhi. *)
Definition rg_delhi : json :=
  JObj [("results", JArr [JObj [("name", JStr "Delhi")]])]%string.

(** A geocoder that knows Delhi only. *)
Definition geocoder : string -> option json :=
  fun name =>
    if String.eqb name "Delhi" then
      Some (JObj [("results",
                   JArr [JObj [("latitude", JNum (2865 # 100));
                               ("longitude", JNum (7723 # 100))]])])%string
    else Some (JObj [])%string.

(** A satellite world in which everything succeeds. *)
Definition clear_sky : tempo_world :=
  mkTempoWorld (Some "user"%string) (Some "secret"%string) (Some true)
    (fun _ => Some ["granule"%string])
    (fun _ => Some ["temp_data/granule.nc"%string])
    (fun _ _ _ => Some (3 # 100000)).

(** The same world without the password variable. *)
Definition no_password : tempo_world :=
  mkTempoWorld (Some "user"%string) None (Some true)
    (fun _ => Some ["granule"%string])
    (fun _ => Some ["temp_data/granule.nc"%string])
    (fun _ _ _ => Some (3 # 100000)).

(** An estimator that holds the value: it answers its input [pm25]. *)
Definition persistence_model : Model :=
  fun f => match Py.as_number (pm25 f) with
           | Some q => Some q
           | None => Some 0
           end.

(** [n] hourly rows, all cells present. *)
Definition hourly (n : nat) : list Train.row :=
  map (fun i => Train.mkRow (at_time 738885 0 0 0 + 3600 * Z.of_nat i)%Z
                  (Some (inject_Z (Z.of_nat i))) (Some 20) (Some 50) (Some 3)
                  (Some 90))
      (seq 0 n).

End Sample.

(** * Properties *)

(** ** Numbers *)

Section NumFacts.

Lemma Qlt_bool_iff (x y : Q) : Qlt_bool x y = true <-> x < y.
Proof.
  unfold Qlt_bool. rewrite negb_true_iff, <- not_true_iff_false, Qle_bool_iff.
  split; [apply Qnot_le_lt | apply Qlt_not_le].
Qed.

Lemma Qlt_bool_false_iff (x y : Q) : Qlt_bool x y = false <-> y <= x.
Proof.
  unfold Qlt_bool. rewrite negb_false_iff. apply Qle_bool_iff.
Qed.

Lemma Qle_bool_false_iff (x y : Q) : Qle_bool x y = false <-> y < x.
Proof.
  rewrite <- not_true_iff_false, Qle_bool_iff.
  split; [apply Qnot_le_lt | apply Qlt_not_le].
Qed.

Lemma max0_nonneg (x : Q) : 0 <= max0 x.
Proof.
  unfold max0. destruct (Qlt_bool 0 x) eqn:E.
  - apply Qlt_le_weak, Qlt_bool_iff, E.
  - apply Qle_refl.
Qed.

Lemma max0_pos (x : Q) : 0 < x -> max0 x = x.
Proof.
  intros H. unfold max0. apply Qlt_bool_iff in H. now rewrite H.
Qed.

Lemma max0_nonpos (x : Q) : x <= 0 -> max0 x = 0.
Proof.
  intros H. unfold max0. apply Qlt_bool_false_iff in H. now rewrite H.
Qed.

Lemma round_half_even_nonneg (q : Q) :
  0 <= q -> (0 <= round_half_even q)%Z.
Proof.
  intros H. unfold Qle in H. simpl in H. rewrite Z.mul_1_r in H.
  unfold round_half_even.
  assert (Hf : (0 <= Qnum q / Zpos (Qden q))%Z)
    by (apply Z.div_pos; lia).
  destruct (2 * (Qnum q mod Zpos (Qden q)) ?= Zpos (Qden q))%Z;
    [destruct (Z.even _) | |]; lia.
Qed.

Lemma round2_nonneg (q : Q) : 0 <= q -> 0 <= round2 q.
Proof.
  intros H. unfold round2. rewrite Qred_correct.
  assert (H100 : 0 <= q * 100)
    by (apply Qmult_le_0_compat; [exact H | discriminate]).
  apply round_half_even_nonneg in H100.
  unfold Qle. simpl. lia.
Qed.

End NumFacts.

(** ** The classifier *)

(** C6. [get_aqi_level] answers on every optional PM2.5 value, and the
    answer is fixed by the interval the value lies in: no value or a
    negative one is Unknown (gray), up to 12.0 Good, up to 35.4 Moderate,
    up to 55.4 Unhealthy for Sensitive Groups, up to 150.4 Unhealthy, up
    to 250.4 Very Unhealthy, above that Hazardous, each with its colour;
    the five boundary cases of the design document come out as listed. *)
Theorem get_aqi_level_table :
  get_aqi_level None = mkLevel "Unknown" "#aaaaaa" /\
  (forall x, x < 0 -> get_aqi_level (Some x) = mkLevel "Unknown" "#aaaaaa") /\
  (forall x, 0 <= x -> x <= 12 ->
     get_aqi_level (Some x) = mkLevel "Good" "#00e400") /\
  (forall x, 12 < x -> x <= 354 # 10 ->
     get_aqi_level (Some x) = mkLevel "Moderate" "#ffff00") /\
  (forall x, 354 # 10 < x -> x <= 554 # 10 ->
     get_aqi_level (Some x) =
       mkLevel "Unhealthy for Sensitive Groups" "#ff7e00") /\
  (forall x, 554 # 10 < x -> x <= 1504 # 10 ->
     get_aqi_level (Some x) = mkLevel "Unhealthy" "#ff0000") /\
  (forall x, 1504 # 10 < x -> x <= 2504 # 10 ->
     get_aqi_level (Some x) = mkLevel "Very Unhealthy" "#8f3f97") /\
  (forall x, 2504 # 10 < x ->
     get_aqi_level (Some x) = mkLevel "Hazardous" "#7e0023") /\
  level (get_aqi_level (Some 12)) = "Good"%string /\
  level (get_aqi_level (Some (121 # 10))) = "Moderate"%string /\
  level (get_aqi_level (Some (-1))) = "Unknown"%string /\
  level (get_aqi_level None) = "Unknown"%string /\
  level (get_aqi_level (Some 300)) = "Hazardous"%string.
Proof.
  assert (Hlt : forall a b c, a < b -> b < c -> Qle_bool c a = false).
  { intros a b c H1 H2. apply Qle_bool_false_iff.
    apply Qlt_trans with b; assumption. }
  repeat split; try reflexivity; intros x; unfold get_aqi_level.
  - intros H. apply Qlt_bool_iff in H. now rewrite H.
  - intros H0 H1. apply Qlt_bool_false_iff in H0. apply Qle_bool_iff in H1.
    now rewrite H0, H1.
  - intros H0 H1.
    assert (Hn : Qlt_bool x 0 = false)
      by (apply Qlt_bool_false_iff, Qlt_le_weak, Qlt_trans with 12;
          [reflexivity | exact H0]).
    apply Qle_bool_false_iff in H0. apply Qle_bool_iff in H1.
    now rewrite Hn, H0, H1.
  - intros H0 H1.
    assert (Hn : Qlt_bool x 0 = false)
      by (apply Qlt_bool_false_iff, Qlt_le_weak, Qlt_trans with (354 # 10);
          [reflexivity | exact H0]).
    rewrite Hn, (Hlt 12 (354 # 10) x eq_refl H0).
    apply Qle_bool_false_iff in H0. apply Qle_bool_iff in H1.
    now rewrite H0, H1.
  - intros H0 H1.
    assert (Hn : Qlt_bool x 0 = false)
      by (apply Qlt_bool_false_iff, Qlt_le_weak, Qlt_trans with (554 # 10);
          [reflexivity | exact H0]).
    rewrite Hn, (Hlt 12 (554 # 10) x eq_refl H0),
      (Hlt (354 # 10) (554 # 10) x eq_refl H0).
    apply Qle_bool_false_iff in H0. apply Qle_bool_iff in H1.
    now rewrite H0, H1.
  - intros H0 H1.
    assert (Hn : Qlt_bool x 0 = false)
      by (apply Qlt_bool_false_iff, Qlt_le_weak, Qlt_trans with (1504 # 10);
          [reflexivity | exact H0]).
    rewrite Hn, (Hlt 12 (1504 # 10) x eq_refl H0),
      (Hlt (354 # 10) (1504 # 10) x eq_refl H0),
      (Hlt (554 # 10) (1504 # 10) x eq_refl H0).
    apply Qle_bool_false_iff in H0. apply Qle_bool_iff in H1.
    now rewrite H0, H1.
  - intros H0.
    assert (Hn : Qlt_bool x 0 = false)
      by (apply Qlt_bool_false_iff, Qlt_le_weak, Qlt_trans with (2504 # 10);
          [reflexivity | exact H0]).
    rewrite Hn, (Hlt 12 (2504 # 10) x eq_refl H0),
      (Hlt (354 # 10) (2504 # 10) x eq_refl H0),
      (Hlt (554 # 10) (2504 # 10) x eq_refl H0),
      (Hlt (1504 # 10) (2504 # 10) x eq_refl H0).
    apply Qle_bool_false_iff in H0. now rewrite H0.
Qed.

(** ** Loops *)

Section Loops.

Context {S : Type} (body : nat -> S -> option S).

Lemma for_each_app (l1 l2 : list nat) (st : S) :
  for_each body (l1 ++ l2) st =
    match for_each body l1 st with
    | (st', true) => for_each body l2 st'
    | (st', false) => (st', false)
    end.
Proof.
  revert st. induction l1 as [|i l1 IH]; intros st; simpl.
  - reflexivity.
  - destruct (body i st) as [st'|]; [apply IH | reflexivity].
Qed.

Lemma range_succ (n : nat) : range (Datatypes.S n) = range n ++ [n].
Proof. unfold range. now rewrite seq_S. Qed.

(** One more iteration of a loop over [range]. *)
Lemma for_each_range_succ (n : nat) (st : S) :
  for_each body (range (Datatypes.S n)) st =
    match for_each body (range n) st with
    | (st', true) =>
        match body n st' with
        | Some st'' => (st'', true)
        | None => (st', false)
        end
    | (st', false) => (st', false)
    end.
Proof.
  rewrite range_succ, for_each_app.
  destruct (for_each body (range n) st) as [st' [|]]; [|reflexivity].
  simpl. destruct (body n st'); reflexivity.
Qed.

(** Whatever the loop leaves is what a loop of [k] completed iterations
    leaves, for some [k] up to the bound, and an invariant of the body
    holds of it. *)
Lemma for_each_range_inv (P : nat -> S -> Prop) (st0 : S) :
  P 0%nat st0 ->
  (forall k st st', P k st -> body k st = Some st' -> P (Datatypes.S k) st') ->
  forall n, exists k,
    (k <= n)%nat /\
    P k (fst (for_each body (range n) st0)) /\
    (snd (for_each body (range n) st0) = true <-> k = n) /\
    for_each body (range k) st0 = (fst (for_each body (range n) st0), true).
Proof.
  intros H0 Hstep. induction n as [|n (k & Hle & HP & Hok & Hk)].
  - exists 0%nat. simpl. repeat split; auto.
  - rewrite for_each_range_succ.
    destruct (for_each body (range n) st0) as [st [|]] eqn:E; simpl in *.
    + assert (k = n) by now apply Hok. subst k.
      destruct (body n st) as [st'|] eqn:B; simpl.
      * exists (Datatypes.S n). repeat split; auto.
        -- eapply Hstep; eauto.
        -- rewrite for_each_range_succ, E, B. reflexivity.
      * exists n. repeat split; auto; try lia; try discriminate.
    + exists k. repeat split; auto; try discriminate; lia.
Qed.

End Loops.

(** ** Date-times *)

Section DateTimeFacts.

Lemma hour_of_add_hours (t : datetime) (h : Z) :
  DT.hour_of (DT.add_hours t h) = ((DT.hour_of t + h) mod 24)%Z.
Proof.
  unfold DT.hour_of, DT.add_hours.
  replace (t + 3600 * h)%Z with (t + h * 3600)%Z by lia.
  rewrite Z.div_add by lia. now rewrite Zplus_mod_idemp_l.
Qed.


Lemma add_hours_succ (t : datetime) (h : Z) :
  DT.add_hours t (h + 1) = (DT.add_hours t h + 3600)%Z.
Proof. unfold DT.add_hours. lia. Qed.

End DateTimeFacts.

(** ** The rollout *)

Section Rollout.

Variable model : Model.
Variable now : datetime.
Variable f0 : FeatureVector.

(** What holds of the loop state after [k] completed iterations. *)
Let inv (k : nat) (st : loop_state) : Prop :=
  List.length (forecast_results st) = k /\
  map Step.hour (forecast_results st) = map (label now) (range k) /\
  Forall (fun d => 0 <= Step.aqi d) (forecast_results st) /\
  same_weather (current_features st) f0.

Lemma loop_body_some (i : nat) (st st' : loop_state) :
  loop_body model now i st = Some st' ->
  exists raw,
    model (current_features st) = Some raw /\
    forecast_results st' =
      forecast_results st ++ [Step.mk (label now i) (round2 (max0 raw))] /\
    current_features st' =
      mkFeatures (JNum (max0 raw))
        (temperature_2m (current_features st))
        (relative_humidity_2m (current_features st))
        (wind_speed_10m (current_features st))
        (wind_direction_10m (current_features st))
        (DT.hour_of (DT.add_hours now (Z.of_nat i + 1)))
        (DT.weekday (DT.add_hours now (Z.of_nat i + 1))).
Proof.
  unfold loop_body. destruct (model (current_features st)) as [raw|];
    [|discriminate].
  intros [= <-]. exists raw. auto.
Qed.

Lemma inv_init : inv 0 (mkLoop [] f0).
Proof. repeat split; constructor. Qed.

Lemma inv_step (k : nat) (st st' : loop_state) :
  inv k st -> loop_body model now k st = Some st' -> inv (S k) st'.
Proof.
  intros (Hlen & Hlab & Hpos & Hw) Hb.
  apply loop_body_some in Hb as (raw & _ & Hres & Hfeat).
  unfold inv. rewrite Hres, Hfeat. repeat split.
  - rewrite length_app. simpl. lia.
  - rewrite map_app, Hlab, range_succ, map_app. reflexivity.
  - apply Forall_app. split; [exact Hpos|].
    constructor; [|constructor]. simpl. apply round2_nonneg, max0_nonneg.
  - apply Hw.
  - apply Hw.
  - apply Hw.
  - apply Hw.
Qed.

Lemma rollout_inv (n : nat) :
  exists k,
    (k <= n)%nat /\
    inv k (fst (rollout model now n f0)) /\
    (snd (rollout model now n f0) = true <-> k = n) /\
    rollout model now k f0 = (fst (rollout model now n f0), true).
Proof.
  unfold rollout.
  apply (for_each_range_inv (loop_body model now) inv (mkLoop [] f0)
           inv_init inv_step n).
Qed.

Lemma rollout_complete_length (k : nat) (st : loop_state) :
  rollout model now k f0 = (st, true) ->
  List.length (forecast_results st) = k.
Proof.
  intros E. destruct (rollout_inv k) as (j & _ & (Hlen & _) & Hok & _).
  rewrite E in *. simpl in *. rewrite Hlen. now apply Hok.
Qed.

Lemma rollout_succ_complete (k : nat) (st' : loop_state) :
  rollout model now (S k) f0 = (st', true) ->
  exists st,
    rollout model now k f0 = (st, true) /\
    loop_body model now k st = Some st'.
Proof.
  unfold rollout. rewrite for_each_range_succ.
  destruct (for_each _ (range k) _) as [st [|]]; [|discriminate].
  destruct (loop_body model now k st) as [st''|] eqn:B; [|discriminate].
  intros [= <-]. now exists st.
Qed.

(** Every recorded step comes from one completed iteration: the
    estimator answered [raw] on the state of that moment, the record
    holds the rounded floor of [raw] and the state that follows holds
    the floor itself. *)
Lemma rollout_nth (k : nat) :
  forall st, rollout model now k f0 = (st, true) ->
  forall i d, nth_error (forecast_results st) i = Some d ->
  exists sti sti' raw,
    rollout model now i f0 = (sti, true) /\
    rollout model now (S i) f0 = (sti', true) /\
    model (current_features sti) = Some raw /\
    d = Step.mk (label now i) (round2 (max0 raw)) /\
    pm25 (current_features sti') = JNum (max0 raw).
Proof.
  induction k as [|k IH]; intros st E i d Hd.
  - unfold rollout in E. simpl in E. injection E as <-.
    destruct i; discriminate.
  - pose proof E as E'.
    apply rollout_succ_complete in E' as (st1 & E1 & B).
    pose proof E1 as Hlen. apply rollout_complete_length in Hlen.
    pose proof B as B'.
    apply loop_body_some in B' as (raw & Hraw & Hres & Hfeat).
    rewrite Hres in Hd.
    destruct (Nat.lt_ge_cases i k) as [Hlt|Hge].
    + rewrite nth_error_app1 in Hd by lia. eapply IH; eauto.
    + rewrite nth_error_app2 in Hd by lia. rewrite Hlen in Hd.
      destruct (i - k)%nat as [|j] eqn:Ej.
      * assert (i = k) by lia. subst i. simpl in Hd. injection Hd as <-.
        exists st1, st, raw. rewrite Hfeat. auto.
      * simpl in Hd. destruct j; discriminate.
Qed.

End Rollout.

(** ** Properties of the rollout *)

(** C3. Whatever the estimator answers, negative values included, every
    value recorded by the rollout is at least 0: the raw prediction is
    floored at 0 before it is rounded and recorded. *)
Theorem rollout_values_nonnegative (model : Model) (now : datetime)
    (n : nat) (f : FeatureVector) :
  Forall (fun d => 0 <= Step.aqi d)
         (forecast_results (fst (rollout model now n f))).
Proof.
  destruct (rollout_inv model now f n) as (k & _ & (_ & _ & Hpos & _) & _).
  exact Hpos.
Qed.

Example negative_prediction_recorded_as_zero :
  map Step.aqi
      (forecast_results
         (fst (rollout Sample.negative_model Sample.monday_noon 6
                 Sample.features)))
  = [0; 0; 0; 0; 0; 0].
Proof. reflexivity. Qed.

(** C5. Whatever the number [k] of iterations run, the state the loop
    of the rollout holds after them has the temperature, humidity, wind
    speed and wind direction it started with; the iterations write
    [pm25], [hour] and [day_of_week] only. *)
Theorem rollout_keeps_weather (model : Model) (now : datetime) (k : nat)
    (f : FeatureVector) :
  same_weather (features_after model now k f) f.
Proof.
  unfold features_after.
  destruct (rollout_inv model now f k) as (j & _ & (_ & _ & _ & Hw) & _).
  exact Hw.
Qed.


(** C10. A recorded step holds the rounding of the value fed back, and
    the value fed back is not rounded: when the [i]-th record (from 0)
    of a rollout is [d], the estimator answered some [raw] on the state
    of that iteration, the next state holds [max(0, raw)] as its [pm25],
    and [d] holds [round(max(0, raw), 2)]. *)
Theorem rounding_on_record_only (model : Model) (now : datetime) (n : nat)
    (f : FeatureVector) (i : nat) (d : Step.t) :
  nth_error (forecast_results (fst (rollout model now n f))) i = Some d ->
  exists raw,
    model (features_after model now i f) = Some raw /\
    pm25 (features_after model now (S i) f) = JNum (max0 raw) /\
    Step.aqi d = round2 (max0 raw).
Proof.
  intros Hd.
  destruct (rollout_inv model now f n) as (k & _ & _ & _ & Hk).
  destruct (rollout_nth model now f k _ Hk i d Hd)
    as (sti & sti' & raw & Ei & Ei' & Hraw & -> & Hpm).
  exists raw. unfold features_after. rewrite Ei, Ei'. simpl. auto.
Qed.

Lemma rounding_on_record_only_witness :
  exists raw,
    Sample.third_model
      (features_after Sample.third_model Sample.monday_noon 2 Sample.features)
      = Some raw /\
    pm25 (features_after Sample.third_model Sample.monday_noon 3
            Sample.features) = JNum (max0 raw) /\
    Step.aqi (Step.mk "15:00" (33 # 100)) = round2 (max0 raw).
Proof.
  apply (rounding_on_record_only Sample.third_model Sample.monday_noon 6
           Sample.features 2 (Step.mk "15:00" (33 # 100))).
  reflexivity.
Defined.

Example feedback_is_not_rounded :
  pm25 (features_after Sample.third_model Sample.monday_noon 1 Sample.features)
    = JNum (1 # 3) /\
  map Step.aqi
      (forecast_results
         (fst (rollout Sample.third_model Sample.monday_noon 1 Sample.features)))
    = [33 # 100].
Proof. split; reflexivity. Qed.



(** ** The fallback and the forecast as a whole *)

Lemma fallback_forecast_steps (clock : nat -> datetime) (c : nat)
    (pm25_value : json) (q : Q) :
  Py.round2 pm25_value = Some q ->
  fallback_forecast clock c pm25_value =
    Some (map (fun i =>
                 Step.mk (DT.strftime_HM
                            (DT.add_hours (clock (c + i)%nat) (Z.of_nat i + 1)))
                         q)
              (range horizon)).
Proof.
  intros H. unfold fallback_forecast, horizon, range, fallback_body.
  simpl. rewrite H. reflexivity.
Qed.

Lemma fallback_forecast_raises (clock : nat -> datetime) (c : nat)
    (pm25_value : json) :
  Py.round2 pm25_value = None ->
  fallback_forecast clock c pm25_value = None.
Proof.
  intros H. unfold fallback_forecast, horizon, range, fallback_body.
  simpl. rewrite H. reflexivity.
Qed.


(** When the six readings of the clock agree, the labels of the fallback
    are one hour apart, as those of the rollout are. *)
Lemma forecast_without_model_steady (t0 : datetime)
    (pm25_value weather : json) (q : Q) :
  Py.round2 pm25_value = Some q ->
  generate_forecast None (fun _ => t0) pm25_value weather =
    Some (map (fun i => Step.mk (label t0 i) q) (range 6)).
Proof.
  intros H. unfold generate_forecast. simpl.
  apply (fallback_forecast_steps (fun _ => t0) 0 pm25_value q H).
Qed.

(** C4. Without an estimator the route answers with six steps holding
    the rounded current value, but each step reads the clock anew: when
    the clock passes from 13:59:59 to 14:00:00 between the first two
    readings, the first two labels are 14:59 and 16:00, an hour and a
    minute apart. *)
Theorem fallback_labels_reread_the_clock :
  option_map (map (fun d => (Step.hour d, Step.aqi d)))
    (generate_forecast None Sample.ticking_clock (JNum 25)
       Sample.no_weather)
  = Some [("14:59", 25); ("16:00", 25); ("17:00", 25);
          ("18:00", 25); ("19:00", 25); ("20:00", 25)]%string.
Proof. vm_compute. reflexivity. Qed.

(** When the estimator answers in all six iterations, the forecast is
    the six steps of the rollout. *)
Lemma forecast_of_completed_rollout (m : Model) (clock : nat -> datetime)
    (pm25_value weather : json) (f : FeatureVector) :
  feature_data (clock 0%nat) pm25_value weather = Some f ->
  snd (rollout m (clock 0%nat) horizon f) = true ->
  generate_forecast (Some m) clock pm25_value weather =
    Some (forecast_results (fst (rollout m (clock 0%nat) horizon f))) /\
  List.length (forecast_results (fst (rollout m (clock 0%nat) horizon f)))
    = 6%nat.
Proof.
  intros Hf Hok.
  destruct (rollout m (clock 0%nat) horizon f) as [st ok] eqn:E.
  simpl in Hok. subst ok.
  pose proof (rollout_complete_length m (clock 0%nat) f horizon st E) as Hlen.
  unfold generate_forecast, model_forecast. rewrite Hf, E. simpl.
  split; [|exact Hlen].
  destruct (forecast_results st); [discriminate Hlen | reflexivity].
Qed.


(** C1. The forecast is not always six steps long: an estimator that
    answers in the first iteration and raises in the second leaves one
    recorded step, the list is not empty, no fallback is substituted and
    the one step is what the route returns. *)
Theorem forecast_cut_short_by_late_failure (clock : nat -> datetime) :
  Sample.flaky_model Sample.features = Some 35 /\
  generate_forecast (Some Sample.flaky_model) clock (JNum 25)
    Sample.no_weather
  = Some [Step.mk (DT.strftime_HM (DT.add_hours (clock 0%nat) 1)) 35].
Proof.
  split; [reflexivity|].
  unfold generate_forecast, model_forecast, rollout, horizon, range.
  cbn -[DT.strftime_HM DT.hour_of DT.weekday DT.add_hours].
  reflexivity.
Qed.

(** ** The ground reading and its default *)


(** When the feed offers a reading, it becomes [pm25_value]. *)
Lemma fetch_ground_reading (lat lon : Q) (rg : option json)
    (waqi : waqi_query -> option json) (v : json) :
  waqi_reading (waqi (waqi_url (reverse_geocode rg) lat lon)) = Some v ->
  pm25_value (fetch_ground lat lon rg waqi) = v.
Proof.
  unfold fetch_ground, waqi_reading.
  destruct (waqi (waqi_url (reverse_geocode rg) lat lon)) as [doc|];
    [|discriminate].
  destruct doc as [| | | | |top]; try discriminate.
  simpl Py.get. simpl Py.contains. simpl Py.getitem at 1.
  destruct (Py.assoc "status" top) as [status|]; [|discriminate].
  destruct status as [| | |s| |];
    try (destruct (Py.assoc "data" top) as [[]|]; discriminate).
  simpl Py.eq_str.
  destruct (Py.assoc "data" top) as [data|];
    [|destruct (String.eqb s "ok"); discriminate].
  destruct data as [| | | | |data]; try discriminate.
  destruct (String.eqb s "ok"); [|discriminate].
  simpl Py.is_some. cbv iota.
  simpl Py.get. simpl Py.getitem at 1.
  destruct (Py.assoc "iaqi" data) as [iaqi|]; [|discriminate].
  destruct iaqi as [| | | | |iaqi]; try discriminate.
  simpl Py.contains. simpl Py.getitem at 1.
  destruct (Py.assoc "pm25" iaqi) as [entry|]; [|discriminate].
  destruct entry as [| | | | |entry]; try discriminate.
  simpl Py.is_some. cbv iota. simpl Py.getitem.
  intros ->.
  destruct (Py.assoc "city" data) as [[| | | | |cityobj]|]; reflexivity.
Qed.

Lemma generate_forecast_of_number (model : option Model)
    (clock : nat -> datetime) (pm25_value weather : json) (q : Q) :
  Py.round2 pm25_value = Some q ->
  exists results,
    generate_forecast model clock pm25_value weather = Some results.
Proof.
  intros H. unfold generate_forecast.
  destruct (model_forecast model clock pm25_value weather) as [[|d rs] c].
  - rewrite (fallback_forecast_steps clock c pm25_value q H). eauto.
  - eauto.
Qed.



(** ** Data preparation of the training script *)

Section TrainFacts.

Import Train.


Lemma add_columns_nil : add_columns [] = [].
Proof. reflexivity. Qed.

Lemma add_columns_one (r : row) :
  add_columns [r] =
    [mkPrepared r (DT.hour_of (date r)) (DT.weekday (date r)) None].
Proof. reflexivity. Qed.

Lemma add_columns_cons (r1 r2 : row) (rest : list row) :
  add_columns (r1 :: r2 :: rest) =
    mkPrepared r1 (DT.hour_of (date r1)) (DT.weekday (date r1)) (pm25 r2)
    :: add_columns (r2 :: rest).
Proof. reflexivity. Qed.




End TrainFacts.




(** C6, on sample values. *)
Lemma get_aqi_level_table_witness :
  get_aqi_level (Some (- (3 # 2))) = mkLevel "Unknown" "#aaaaaa" /\
  get_aqi_level (Some (7 # 1)) = mkLevel "Good" "#00e400" /\
  get_aqi_level (Some (35 # 1)) = mkLevel "Moderate" "#ffff00" /\
  get_aqi_level (Some (100 # 1)) = mkLevel "Unhealthy" "#ff0000" /\
  get_aqi_level (Some (1000 # 1)) = mkLevel "Hazardous" "#7e0023".
Proof.
  destruct get_aqi_level_table
    as (_ & Hneg & Hgood & Hmod & _ & Hunh & _ & Hhaz & _).
  refine (conj _ (conj _ (conj _ (conj _ _)))).
  - apply Hneg. reflexivity.
  - apply Hgood; discriminate.
  - apply Hmod; [reflexivity | discriminate].
  - apply Hunh; [reflexivity | discriminate].
  - apply Hhaz. reflexivity.
Defined.

(** * Further properties of the routes and of the training script *)

(** ** The classifier *)

Ltac split_comparisons :=
  repeat match goal with
         | |- context [Qlt_bool ?a ?b] =>
             let E := fresh "E" in
             destruct (Qlt_bool a b) eqn:E;
             [apply Qlt_bool_iff in E | apply Qlt_bool_false_iff in E]
         | |- context [Qle_bool ?a ?b] =>
             let E := fresh "E" in
             destruct (Qle_bool a b) eqn:E;
             [apply Qle_bool_iff in E | apply Qle_bool_false_iff in E]
         end.

(** X1. The category never gets milder as the concentration grows:
    for [x <= y] the level of [y] ranks at least as high as the level of
    [x] on the scale Unknown, Good, Moderate, Unhealthy for Sensitive
    Groups, Unhealthy, Very Unhealthy, Hazardous. *)
Theorem get_aqi_level_monotone (x y : Q) :
  x <= y ->
  (severity (get_aqi_level (Some x)) <= severity (get_aqi_level (Some y)))%nat.
Proof.
  intros Hxy. unfold get_aqi_level.
  split_comparisons; cbn; try lia; exfalso; lra.
Qed.

Lemma get_aqi_level_monotone_witness :
  (severity (get_aqi_level (Some (30 # 1)))
   <= severity (get_aqi_level (Some (200 # 1))))%nat.
Proof.
  apply (get_aqi_level_monotone (30 # 1) (200 # 1)). discriminate.
Defined.

(** X2. The classifier answers Unknown for the missing value and for the
    negative ones, and for nothing else. *)
Theorem get_aqi_level_unknown_iff (p : option Q) :
  get_aqi_level p = Unknown <-> p = None \/ exists x, p = Some x /\ x < 0.
Proof.
  split.
  - destruct p as [x|]; [|now left]. intros H. right. exists x.
    split; [reflexivity|]. revert H. unfold get_aqi_level.
    split_comparisons; try discriminate. intros _. assumption.
  - intros [->|(x & -> & Hx)]; [reflexivity|].
    unfold get_aqi_level. apply Qlt_bool_iff in Hx. now rewrite Hx.
Qed.

(** ** The rollout, further *)

Lemma rollout_zero (model : Model) (now : datetime) (f : FeatureVector) :
  rollout model now 0 f = (mkLoop [] f, true).
Proof. reflexivity. Qed.

(** A completed rollout has completed every shorter one, and its records
    begin with theirs. *)
Lemma rollout_complete_prefix (model : Model) (now : datetime)
    (f : FeatureVector) (n : nat) :
  forall st, rollout model now n f = (st, true) ->
  forall k, (k <= n)%nat ->
  exists stk,
    rollout model now k f = (stk, true) /\
    forecast_results stk = firstn k (forecast_results st).
Proof.
  induction n as [|n IH]; intros st E k Hk.
  - assert (k = 0)%nat by lia. subst k. exists st. split; [exact E|].
    rewrite rollout_zero in E. injection E as <-. reflexivity.
  - destruct (Nat.eq_dec k (S n)) as [->|Hne].
    + exists st. split; [exact E|].
      pose proof (rollout_complete_length model now f (S n) st E) as Hlen.
      rewrite <- Hlen at 1. now rewrite firstn_all.
    + pose proof E as E'.
      apply rollout_succ_complete in E' as (st1 & E1 & B).
      apply loop_body_some in B as (raw & _ & Hres & _).
      destruct (IH st1 E1 k ltac:(lia)) as (stk & Ek & Hpre).
      exists stk. split; [exact Ek|].
      pose proof (rollout_complete_length model now f n st1 E1) as Hlen.
      rewrite Hpre, Hres, firstn_app.
      replace (k - List.length (forecast_results st1))%nat with 0%nat by lia.
      simpl. now rewrite app_nil_r.
Qed.

(** X3. A rollout over a shorter horizon is the beginning of the one
    over a longer horizon: for [k] up to the number of steps the longer
    one recorded, the rollout over [k] iterations completes and records
    exactly its first [k] steps. *)
Theorem rollout_prefix (model : Model) (now : datetime) (f : FeatureVector)
    (n k : nat) :
  (k <= List.length (forecast_results (fst (rollout model now n f))))%nat ->
  snd (rollout model now k f) = true /\
  forecast_results (fst (rollout model now k f)) =
    firstn k (forecast_results (fst (rollout model now n f))).
Proof.
  intros Hk.
  destruct (rollout_inv model now f n) as (j & _ & (Hlen & _) & _ & Hj).
  rewrite Hlen in Hk.
  destruct (rollout_complete_prefix model now f j _ Hj k Hk)
    as (stk & Ek & Hpre).
  rewrite Ek. simpl. auto.
Qed.

Lemma rollout_prefix_witness :
  snd (rollout Sample.flaky_model Sample.monday_noon 1 Sample.features) = true /\
  forecast_results
    (fst (rollout Sample.flaky_model Sample.monday_noon 1 Sample.features)) =
  firstn 1
    (forecast_results
       (fst (rollout Sample.flaky_model Sample.monday_noon 6 Sample.features))).
Proof.
  apply (rollout_prefix Sample.flaky_model Sample.monday_noon Sample.features
           6 1).
  vm_compute. lia.
Defined.

(** X4. The loop stops at the first exception and keeps what it has:
    when [k] iterations complete and the estimator raises on the state
    they leave, every longer rollout ends there, flagged as failed, with
    exactly [k] steps recorded. *)
Theorem rollout_stops_at_first_failure (model : Model) (now : datetime)
    (f : FeatureVector) (k n : nat) :
  (k < n)%nat ->
  snd (rollout model now k f) = true ->
  model (features_after model now k f) = None ->
  rollout model now n f = (fst (rollout model now k f), false) /\
  List.length (forecast_results (fst (rollout model now n f))) = k.
Proof.
  intros Hkn Hok Hfail.
  destruct (rollout model now k f) as [stk ok] eqn:Ek.
  simpl in Hok. subst ok.
  unfold features_after in Hfail. rewrite Ek in Hfail. simpl in Hfail.
  assert (En : rollout model now n f = (stk, false)).
  { unfold rollout, range in *.
    replace n with (k + (n - k))%nat by lia.
    rewrite seq_app, for_each_app, Ek.
    destruct (n - k)%nat as [|d] eqn:Ed; [lia|].
    simpl. unfold loop_body at 1. now rewrite Hfail. }
  rewrite En. simpl. split; [reflexivity|].
  apply (rollout_complete_length model now f k stk Ek).
Qed.

Lemma rollout_stops_at_first_failure_witness :
  rollout Sample.flaky_model Sample.monday_noon 6 Sample.features =
    (fst (rollout Sample.flaky_model Sample.monday_noon 1 Sample.features),
     false) /\
  List.length
    (forecast_results
       (fst (rollout Sample.flaky_model Sample.monday_noon 6 Sample.features)))
  = 1%nat.
Proof.
  apply (rollout_stops_at_first_failure Sample.flaky_model Sample.monday_noon
           Sample.features 1 6);
    [lia | reflexivity | reflexivity].
Defined.

Lemma rollout_of_total_model (model : Model) (now : datetime)
    (f : FeatureVector) (n : nat) :
  always_answers model ->
  snd (rollout model now n f) = true.
Proof.
  intros Htotal. induction n as [|n IH]; [reflexivity|].
  unfold rollout in *. rewrite for_each_range_succ.
  destruct (for_each (loop_body model now) (range n) (mkLoop [] f))
    as [st ok]. simpl in IH. subst ok.
  unfold loop_body. destruct (Htotal (current_features st)) as (raw & ->).
  reflexivity.
Qed.

(** X5. An estimator that never raises gives a full rollout: all [n]
    iterations complete and [n] steps are recorded, labelled with the
    start plus 1, 2, ..., [n] hours. *)
Theorem rollout_complete_when_model_answers (model : Model) (now : datetime)
    (f : FeatureVector) (n : nat) :
  always_answers model ->
  snd (rollout model now n f) = true /\
  List.length (forecast_results (fst (rollout model now n f))) = n /\
  map Step.hour (forecast_results (fst (rollout model now n f))) =
    map (fun i => DT.strftime_HM (DT.add_hours now (Z.of_nat i + 1)))
        (range n).
Proof.
  intros Htotal.
  pose proof (rollout_of_total_model model now f n Htotal) as Hok.
  destruct (rollout_inv model now f n) as (k & _ & (Hlen & Hlab & _) & Hiff & _).
  pose proof Hok as Hk. apply Hiff in Hk. rewrite Hk in Hlen, Hlab.
  split; [exact Hok | split; [exact Hlen | exact Hlab]].
Qed.

Lemma rollout_complete_when_model_answers_witness :
  snd (rollout Sample.third_model Sample.monday_noon 6 Sample.features) = true /\
  List.length
    (forecast_results
       (fst (rollout Sample.third_model Sample.monday_noon 6 Sample.features)))
    = 6%nat /\
  map Step.hour
    (forecast_results
       (fst (rollout Sample.third_model Sample.monday_noon 6 Sample.features)))
    = map (fun i => DT.strftime_HM
                      (DT.add_hours Sample.monday_noon (Z.of_nat i + 1)))
          (range 6).
Proof.
  apply (rollout_complete_when_model_answers Sample.third_model
           Sample.monday_noon Sample.features 6).
  intros f. exists (1 # 3). reflexivity.
Defined.

(** X6. The hour and the day of the week fed to the next prediction are
    those of the step just recorded: after iteration [k] (from 0)
    completes, [hour] is the start hour plus [k + 1] modulo 24 and
    [day_of_week] the weekday of the start plus [k + 1] hours, an hour
    in 0..23 and a day in 0..6. *)
Theorem rollout_feeds_forecast_time (model : Model) (now : datetime)
    (f : FeatureVector) (k : nat) :
  snd (rollout model now (S k) f) = true ->
  let f' := features_after model now (S k) f in
  hour f' = ((DT.hour_of now + (Z.of_nat k + 1)) mod 24)%Z /\
  day_of_week f' = DT.weekday (DT.add_hours now (Z.of_nat k + 1)) /\
  (0 <= hour f' < 24)%Z /\
  (0 <= day_of_week f' < 7)%Z.
Proof.
  intros Hok f'. unfold f', features_after.
  destruct (rollout model now (S k) f) as [st' ok] eqn:E.
  simpl in Hok. subst ok.
  apply rollout_succ_complete in E as (st & _ & B).
  apply loop_body_some in B as (raw & _ & _ & Hfeat).
  simpl fst. rewrite Hfeat. simpl hour. simpl day_of_week.
  rewrite hour_of_add_hours. repeat split; try reflexivity.
  - apply Z.mod_pos_bound. lia.
  - apply Z.mod_pos_bound. lia.
  - unfold DT.weekday. apply Z.mod_pos_bound. lia.
  - unfold DT.weekday. apply Z.mod_pos_bound. lia.
Qed.

Lemma rollout_feeds_forecast_time_witness :
  hour (features_after Sample.third_model Sample.monday_noon 13
          Sample.features) = 1%Z /\
  day_of_week (features_after Sample.third_model Sample.monday_noon 13
                 Sample.features) = 1%Z.
Proof.
  destruct (rollout_feeds_forecast_time Sample.third_model Sample.monday_noon
              Sample.features 12 eq_refl) as (Hh & Hd & _).
  split; [rewrite Hh | rewrite Hd]; reflexivity.
Defined.

(** ** The forecast and the response, further *)

Lemma fallback_forecast_length (clock : nat -> datetime) (c : nat)
    (pm25_value : json) (results : list Step.t) :
  fallback_forecast clock c pm25_value = Some results ->
  List.length results = 6%nat.
Proof.
  destruct (Py.round2 pm25_value) as [q|] eqn:Hr.
  - rewrite (fallback_forecast_steps clock c pm25_value q Hr).
    intros [= <-]. reflexivity.
  - rewrite (fallback_forecast_raises clock c pm25_value Hr). discriminate.
Qed.

Lemma model_forecast_length (model : option Model) (clock : nat -> datetime)
    (pm25_value weather : json) :
  (List.length (fst (model_forecast model clock pm25_value weather)) <= 6)%nat.
Proof.
  unfold model_forecast. destruct model as [m|]; [|simpl; lia].
  destruct (feature_data (clock 0%nat) pm25_value weather) as [f|];
    [|simpl; lia].
  simpl fst.
  destruct (rollout_inv m (clock 0%nat) f horizon)
    as (k & Hk & (Hlen & _) & _).
  rewrite Hlen. exact Hk.
Qed.

(** X7. Whatever the estimator, the clock and the inputs, a forecast the
    route gets to return is never empty and never longer than six
    steps. *)
Theorem forecast_length_bounds (model : option Model)
    (clock : nat -> datetime) (pm25_value weather : json)
    (results : list Step.t) :
  generate_forecast model clock pm25_value weather = Some results ->
  (1 <= List.length results <= 6)%nat.
Proof.
  unfold generate_forecast.
  pose proof (model_forecast_length model clock pm25_value weather) as Hlen.
  destruct (model_forecast model clock pm25_value weather) as [[|d rs] c].
  - intros H. apply fallback_forecast_length in H. lia.
  - intros [= <-]. simpl in *. lia.
Qed.

Lemma forecast_length_bounds_witness :
  (1 <= List.length [Step.mk "13:00" 35] <= 6)%nat.
Proof.
  apply (forecast_length_bounds (Some Sample.flaky_model) Sample.steady_clock
           (JNum 25) Sample.no_weather).
  reflexivity.
Defined.

Lemma feature_data_of_object (now : datetime) (pm25_value : json)
    (kvs : list (string * json)) :
  exists f, feature_data now pm25_value (JObj kvs) = Some f.
Proof. unfold feature_data. simpl. eauto. Qed.

(** X8. With an estimator that never raises and a weather object, the
    forecast is the full rollout: six steps, none negative, all labelled
    from the single clock reading made before the loop, and this
    whatever [pm25_value] is. *)
Theorem forecast_full_when_model_answers (m : Model)
    (clock : nat -> datetime) (pm25_value : json)
    (kvs : list (string * json)) :
  always_answers m ->
  exists results,
    generate_forecast (Some m) clock pm25_value (JObj kvs) = Some results /\
    List.length results = 6%nat /\
    map Step.hour results =
      map (fun i => DT.strftime_HM
                      (DT.add_hours (clock 0%nat) (Z.of_nat i + 1)))
          (range 6) /\
    Forall (fun d => 0 <= Step.aqi d) results.
Proof.
  intros Htotal.
  destruct (feature_data_of_object (clock 0%nat) pm25_value kvs) as (f & Hf).
  pose proof (rollout_of_total_model m (clock 0%nat) f horizon Htotal) as Hok.
  destruct (forecast_of_completed_rollout m clock pm25_value (JObj kvs) f
              Hf Hok) as (Hgen & Hlen).
  exists (forecast_results (fst (rollout m (clock 0%nat) horizon f))).
  destruct (rollout_inv m (clock 0%nat) f horizon)
    as (k & _ & (Hk & Hlab & Hpos & _) & _).
  rewrite Hlen in Hk. rewrite <- Hk in Hlab.
  split; [exact Hgen | split; [exact Hlen | split; [exact Hlab | exact Hpos]]].
Qed.

Lemma forecast_full_when_model_answers_witness :
  exists results,
    generate_forecast (Some Sample.persistence_model) Sample.ticking_clock
      (JStr "-") (JObj []) = Some results /\
    List.length results = 6%nat /\
    map Step.hour results =
      map (fun i => DT.strftime_HM
                      (DT.add_hours (Sample.ticking_clock 0%nat)
                         (Z.of_nat i + 1)))
          (range 6) /\
    Forall (fun d => 0 <= Step.aqi d) results.
Proof.
  apply (forecast_full_when_model_answers Sample.persistence_model
           Sample.ticking_clock (JStr "-") []).
  intros f. unfold Sample.persistence_model.
  destruct (Py.as_number (pm25 f)); eauto.
Defined.

(** X9. Once the coordinates are parsed and the weather is fetched, the
    route answers exactly when [pm25_value] is a number: then the
    response reports its rounding, its level, the location and the
    forecast of step 4; a reading that is not a number (a
    string, [null], a list) ends the route with an unhandled exception,
    whatever the estimator. *)
Theorem response_needs_numeric_reading (lat lon : Q) (weather : json)
    (rg : option json) (waqi : waqi_query -> option json)
    (tempo : Q -> Q -> json) (model : option Model)
    (clock : nat -> datetime) :
  let g := fetch_ground lat lon rg waqi in
  let answer :=
    get_sensor_data (Some lat) (Some lon) (Some weather) rg waqi tempo
      model clock in
  (Py.as_number (pm25_value g) = None -> answer = InternalError) /\
  (forall q,
     Py.as_number (pm25_value g) = Some q ->
     exists results,
       generate_forecast model clock (pm25_value g) weather = Some results /\
       answer =
         Ok (mkResponse
               (mkGroundData (location_name g) (round2 q) "µg/m³"
                  (get_aqi_level (Some q)))
               weather (tempo lat lon) results)).
Proof.
  intros g answer. unfold answer, get_sensor_data. fold g. split.
  - intros Hnum.
    assert (Hr : Py.round2 (pm25_value g) = None)
      by (unfold Py.round2; now rewrite Hnum).
    destruct (generate_forecast model clock (pm25_value g) weather);
      [|reflexivity].
    now rewrite Hr.
  - intros q Hnum.
    assert (Hr : Py.round2 (pm25_value g) = Some (round2 q))
      by (unfold Py.round2; now rewrite Hnum).
    destruct (generate_forecast_of_number model clock (pm25_value g) weather
                (round2 q) Hr) as (results & Hres).
    exists results. rewrite Hres, Hr, Hnum. split; reflexivity.
Qed.

Lemma response_needs_numeric_reading_witness :
  get_sensor_data (Some 28) (Some 77) (Some Sample.no_weather) None
    Sample.waqi_with_dash Sample.no_tempo (Some Sample.persistence_model)
    Sample.steady_clock = InternalError.
Proof.
  apply (response_needs_numeric_reading 28 77 Sample.no_weather None
           Sample.waqi_with_dash Sample.no_tempo
           (Some Sample.persistence_model) Sample.steady_clock).
  reflexivity.
Defined.

(** X10. The weather cells of the feature row: from a weather object
    each cell is the member of that name when there is one, whatever it
    is ([null] included), and the default 18, 60, 5 or 180 when there is
    none; when the weather is not an object the row cannot be built and,
    even with an estimator loaded, the forecast is the fallback, made
    from the clock readings after the first. *)
Theorem weather_cells_and_defaults :
  (forall now pm25_value kvs,
     let cell name default :=
       match Py.assoc name kvs with Some x => x | None => default end in
     feature_data now pm25_value (JObj kvs) =
       Some (mkFeatures pm25_value
               (cell "temperature_2m"%string (JNum 18))
               (cell "relative_humidity_2m"%string (JNum 60))
               (cell "wind_speed_10m"%string (JNum 5))
               (cell "wind_direction_10m"%string (JNum 180))
               (DT.hour_of now) (DT.weekday now))) /\
  (forall m clock pm25_value weather,
     (forall kvs, weather <> JObj kvs) ->
     generate_forecast (Some m) clock pm25_value weather =
       fallback_forecast clock 1 pm25_value).
Proof.
  split.
  - intros now pm25_value kvs cell. reflexivity.
  - intros m clock pm25_value weather Hno.
    unfold generate_forecast, model_forecast, feature_data.
    destruct weather as [| | | | |kvs]; try reflexivity.
    now destruct (Hno kvs).
Qed.

Lemma weather_cells_and_defaults_witness :
  generate_forecast (Some Sample.third_model) Sample.steady_clock (JNum 25)
    JNull
  = fallback_forecast Sample.steady_clock 1 (JNum 25).
Proof.
  apply (proj2 weather_cells_and_defaults Sample.third_model
           Sample.steady_clock (JNum 25) JNull).
  intros kvs. discriminate.
Defined.

(** ** The ground reading, further *)

(** X11. When the feed offers a reading, [pm25_value] is that reading
    and the location is read from [data.city.name]: "Unknown Station"
    when [data] has no [city] or the city object has no [name]; but
    when [city] is there and is not an object, the lookup raises after
    the value was stored, and the real reading is reported under the
    default label "Regional Estimate". *)
Theorem station_reading_and_label (lat lon : Q) (rg : option json)
    (waqi : waqi_query -> option json) (v : json) :
  let doc := waqi (waqi_url (reverse_geocode rg) lat lon) in
  waqi_reading doc = Some v ->
  fetch_ground lat lon rg waqi =
    mkGround v
      match
        match doc with
        | Some d => json_path ["data"; "city"]%string d
        | None => None
        end
      with
      | None => JStr "Unknown Station"
      | Some (JObj city) =>
          match Py.assoc "name" city with
          | Some name => name
          | None => JStr "Unknown Station"
          end
      | Some _ => JStr "Regional Estimate"
      end.
Proof.
  intros doc. unfold doc, fetch_ground, waqi_reading.
  destruct (waqi (waqi_url (reverse_geocode rg) lat lon)) as [d|];
    [|discriminate].
  destruct d as [| | | | |top]; try discriminate.
  simpl Py.get. simpl Py.contains. simpl json_path.
  simpl Py.getitem at 1.
  destruct (Py.assoc "status" top) as [status|]; [|discriminate].
  destruct status as [| | |s| |];
    try (destruct (Py.assoc "data" top) as [[]|]; discriminate).
  simpl Py.eq_str.
  destruct (Py.assoc "data" top) as [data|];
    [|destruct (String.eqb s "ok"); discriminate].
  destruct data as [| | | | |data]; try discriminate.
  destruct (String.eqb s "ok"); [|discriminate].
  simpl Py.is_some. cbv iota.
  simpl Py.get. simpl Py.getitem.
  destruct (Py.assoc "iaqi" data) as [iaqi|]; [|discriminate].
  destruct iaqi as [| | | | |iaqi]; try discriminate.
  simpl Py.contains. simpl Py.getitem.
  destruct (Py.assoc "pm25" iaqi) as [entry|]; [|discriminate].
  destruct entry as [| | | | |entry]; try discriminate.
  simpl Py.is_some. cbv iota. simpl Py.getitem.
  intros ->.
  destruct (Py.assoc "city" data) as [[| | | | |city]|]; reflexivity.
Qed.

Lemma station_reading_and_label_witness :
  fetch_ground 28 77 None Sample.waqi_with_null_city =
    mkGround (JNum 42) (JStr "Regional Estimate").
Proof.
  apply (station_reading_and_label 28 77 None Sample.waqi_with_null_city
           (JNum 42)).
  reflexivity.
Defined.

(** X12. The feed is asked by city name exactly when the reverse
    geocoder answered an object whose [results] is a list beginning with
    an object that has a truthy [name], and then with that name; in
    every other case (the request failed, no results, no name, an empty
    name) it is asked by the coordinates of the request. *)
Theorem feed_query_choice (rg : option json) (lat lon : Q) :
  (forall city,
     waqi_url (reverse_geocode rg) lat lon = FeedCity city <->
     Py.truthy city = true /\
     exists top first rest,
       rg = Some (JObj top) /\
       Py.assoc "results" top = Some (JArr (JObj first :: rest)) /\
       Py.assoc "name" first = Some city) /\
  ((forall city, waqi_url (reverse_geocode rg) lat lon <> FeedCity city) ->
   waqi_url (reverse_geocode rg) lat lon = FeedGeo lat lon).
Proof.
  split.
  - intros city. split.
    + unfold waqi_url.
      destruct (Py.truthy (reverse_geocode rg)) eqn:T; [|discriminate].
      intros [= <-]. split; [exact T|].
      unfold reverse_geocode in T |- *.
      destruct rg as [[| | | | |top]|]; try discriminate.
      simpl Py.get in *. simpl Py.getitem in *.
      destruct (Py.assoc "results" top) as [results|] eqn:Hres;
        [|discriminate].
      destruct (Py.truthy results); [|discriminate].
      destruct results as [| | |s|[|first rest]|]; try discriminate.
      * destruct s; discriminate.
      * simpl Py.getitem0 in *.
        destruct first as [| | | | |first]; try discriminate.
        simpl Py.get in *.
        destruct (Py.assoc "name" first) as [name|] eqn:Hname;
          [|discriminate].
        exists top, first, rest. auto.
    + intros (T & top & first & rest & -> & Hres & Hname).
      unfold waqi_url, reverse_geocode.
      simpl Py.get. simpl Py.getitem. rewrite Hres. simpl.
      rewrite Hname, T. reflexivity.
  - intros Hno. unfold waqi_url in *.
    destruct (Py.truthy (reverse_geocode rg)); [|reflexivity].
    now destruct (Hno (reverse_geocode rg)).
Qed.

Lemma feed_query_choice_witness :
  waqi_url (reverse_geocode (Some Sample.rg_delhi)) 28 77
    = FeedCity (JStr "Delhi") /\
  waqi_url (reverse_geocode None) 28 77 = FeedGeo 28 77.
Proof.
  split.
  - apply (proj1 (feed_query_choice (Some Sample.rg_delhi) 28 77)).
    split; [reflexivity|].
    exists [("results", JArr [JObj [("name", JStr "Delhi")]])]%string,
           [("name", JStr "Delhi")]%string, [].
    repeat split.
  - apply (proj2 (feed_query_choice None 28 77)).
    intros city. discriminate.
Defined.

(** ** The geocoding route *)

(** X13. The geocoding route answers with coordinates exactly when a
    non-empty city was given, the service answered an object whose
    [results] is a list beginning with an object that has both
    [latitude] and [longitude], and then with those two members of the
    first result. *)
Theorem geocode_found_iff (city : option string)
    (search : string -> option json) (latitude longitude : json) :
  Geo.geocode city search = Geo.Found latitude longitude <->
  exists name top first rest,
    city = Some name /\ name <> EmptyString /\
    search name = Some (JObj top) /\
    Py.assoc "results" top = Some (JArr (JObj first :: rest)) /\
    Py.assoc "latitude" first = Some latitude /\
    Py.assoc "longitude" first = Some longitude.
Proof.
  split.
  - unfold Geo.geocode.
    destruct city as [[|c name]|]; try discriminate.
    destruct (search (String c name)) as [data|] eqn:Hs; [|discriminate].
    destruct data as [| | |s|l|top]; try discriminate.
    + simpl Py.contains. destruct (Py.is_some _); discriminate.
    + simpl Py.contains. destruct (existsb _ l); discriminate.
    + simpl Py.contains. simpl Py.getitem at 1.
      destruct (Py.assoc "results" top) as [results|] eqn:Hres;
        [|discriminate].
      simpl Py.is_some. cbv iota.
      destruct (Geo.len results) as [n|]; [|discriminate].
      destruct (0 <? n)%nat; [|discriminate].
      destruct results as [| | |s|[|first rest]|]; try discriminate.
      * destruct s; discriminate.
      * simpl Py.getitem0.
        destruct first as [| | | | |first]; try discriminate.
        simpl Py.getitem.
        destruct (Py.assoc "latitude" first) as [la|] eqn:Hla;
          [|discriminate].
        destruct (Py.assoc "longitude" first) as [lo|] eqn:Hlo;
          [|discriminate].
        intros [= <- <-].
        exists (String c name), top, first, rest.
        repeat split; auto. discriminate.
  - intros (name & top & first & rest & -> & Hne & Hs & Hres & Hla & Hlo).
    unfold Geo.geocode. destruct name as [|c name]; [contradiction|].
    rewrite Hs. simpl Py.contains. simpl Py.getitem at 1. rewrite Hres.
    simpl. now rewrite Hla, Hlo.
Qed.

(** X14. The failures of the geocoding route: no city or an empty one is
    answered 400 without asking the service; a failed request 500; an
    object without [results], or with an empty list, 404; but a first
    result that lacks a coordinate, or an answer that is [null], raises
    an exception the route does not handle. *)
Theorem geocode_failures (search : string -> option json) :
  Geo.geocode None search = Geo.Error "City parameter is required" 400 /\
  Geo.geocode (Some EmptyString) search =
    Geo.Error "City parameter is required" 400 /\
  (forall name,
     name <> EmptyString ->
     (search name = None ->
      Geo.geocode (Some name) search =
        Geo.Error "Failed to connect to geocoding service" 500) /\
     (forall top,
        search name = Some (JObj top) ->
        Py.assoc "results" top = None \/
        Py.assoc "results" top = Some (JArr []) ->
        Geo.geocode (Some name) search = Geo.Error "City not found" 404) /\
     (forall top first rest,
        search name = Some (JObj top) ->
        Py.assoc "results" top = Some (JArr (first :: rest)) ->
        Py.getitem first "latitude" = None \/
        Py.getitem first "longitude" = None ->
        Geo.geocode (Some name) search = Geo.Unhandled) /\
     (search name = Some JNull ->
      Geo.geocode (Some name) search = Geo.Unhandled)).
Proof.
  split; [reflexivity | split; [reflexivity|]].
  intros name Hne. destruct name as [|c name]; [contradiction|].
  unfold Geo.geocode. repeat split.
  - now intros ->.
  - intros top -> [Hres|Hres]; simpl; now rewrite Hres.
  - intros top first rest -> Hres Hmiss. simpl Py.contains.
    simpl Py.getitem at 1. rewrite Hres. simpl.
    destruct Hmiss as [H|H]; rewrite H; [reflexivity|].
    destruct (Py.getitem first "latitude"); reflexivity.
  - now intros ->.
Qed.

Lemma geocode_failures_witness :
  Geo.geocode (Some "Atlantis"%string) Sample.geocoder =
    Geo.Error "City not found" 404.
Proof.
  destruct (geocode_failures Sample.geocoder) as (_ & _ & H).
  destruct (H "Atlantis"%string ltac:(discriminate)) as (_ & Hnone & _).
  apply (Hnone []); [reflexivity | left; reflexivity].
Defined.

(** ** The satellite reading *)

(** X15. Without usable credentials the satellite reading is the
    simulated one, status "Simulated (Error)" with value 1.5e-5,
    whatever NASA would have answered: an unset variable and an empty
    one both end in the [except] branch before any login. *)
Theorem tempo_needs_credentials (w : tempo_world) (lat lon : Q) :
  earthdata_user w = None \/ earthdata_user w = Some EmptyString \/
  earthdata_pass w = None \/ earthdata_pass w = Some EmptyString ->
  get_tempo_data w lat lon =
    JObj [("status"%string, JStr "Simulated (Error)");
          ("value"%string, JNum (15 # 1000000))].
Proof.
  unfold get_tempo_data.
  intros [H|[H|[H|H]]]; rewrite H; try reflexivity.
  - destruct (earthdata_pass w); reflexivity.
  - destruct (earthdata_user w); reflexivity.
  - destruct (earthdata_user w) as [user|]; [|reflexivity].
    simpl. now rewrite orb_true_r.
Qed.

Lemma tempo_needs_credentials_witness :
  get_tempo_data Sample.no_password 28 77 =
    JObj [("status"%string, JStr "Simulated (Error)");
          ("value"%string, JNum (15 # 1000000))].
Proof.
  apply (tempo_needs_credentials Sample.no_password 28 77).
  right; right; left. reflexivity.
Defined.


Lemma geocode_found_iff_witness :
  Geo.geocode (Some "Delhi"%string) Sample.geocoder =
    Geo.Found (JNum (2865 # 100)) (JNum (7723 # 100)).
Proof.
  apply (proj2 (geocode_found_iff (Some "Delhi"%string) Sample.geocoder
                  (JNum (2865 # 100)) (JNum (7723 # 100)))).
  exists "Delhi"%string,
         [("results",
           JArr [JObj [("latitude", JNum (2865 # 100));
                       ("longitude", JNum (7723 # 100))]])]%string,
         [("latitude", JNum (2865 # 100));
          ("longitude", JNum (7723 # 100))]%string,
         [].
  repeat split. discriminate.
Defined.

(** ** The training set *)

Section TrainingSet.

Import Train.

Lemma add_columns_in (df : list row) (p : prepared) :
  In p (add_columns df) ->
  In (source p) df /\
  hour p = DT.hour_of (date (source p)) /\
  day_of_week p = DT.weekday (date (source p)).
Proof.
  unfold add_columns. intros Hin. apply in_map_iff in Hin.
  destruct Hin as ([r target] & <- & Hin). apply in_combine_l in Hin.
  simpl. auto.
Qed.

Lemma dropna_length (df : list row) :
  (List.length (dropna (add_columns df)) <= List.length df - 1)%nat.
Proof.
  induction df as [|r1 df IH]; [simpl; lia|].
  destruct df as [|r2 rest].
  - rewrite add_columns_one. unfold dropna, complete. simpl.
    rewrite !andb_false_r. simpl. lia.
  - rewrite add_columns_cons. unfold dropna in *.
    simpl filter.
    destruct (complete _); simpl List.length in *; lia.
Qed.

Lemma final_df_rows (df : list row) (final : list prepared) :
  final_df df = Some final ->
  final = dropna (add_columns (dropna_pm25 df)).
Proof.
  unfold final_df. destruct (dropna_pm25 df); [discriminate|].
  now intros [= <-].
Qed.

Lemma train_saved (df : list row) (final : list prepared) :
  train df = Saved final ->
  final_df df = Some final /\ (100 <= List.length final)%nat.
Proof.
  unfold train. destruct (final_df df) as [rows|]; [|discriminate].
  destruct (List.length rows <? 100)%nat eqn:E; [discriminate|].
  intros [= <-]. apply Nat.ltb_ge in E. auto.
Qed.

End TrainingSet.

(** X17. What an estimator is fitted on: whenever the script gets to
    fit and save, the training set has at least 100 rows, every row has
    all its cells present (features and target), comes from a row of the
    input frame, and carries the hour and the day of the week of that
    row's own date. *)
Theorem training_set_is_clean (df : list Train.row)
    (final : list Train.prepared) :
  Train.train df = Train.Saved final ->
  (100 <= List.length final)%nat /\
  forall p,
    In p final ->
    Train.complete p = true /\
    In (Train.source p) df /\
    Train.hour p = DT.hour_of (Train.date (Train.source p)) /\
    Train.day_of_week p = DT.weekday (Train.date (Train.source p)).
Proof.
  intros Hsaved. apply train_saved in Hsaved as (Hfinal & Hlen).
  split; [exact Hlen|].
  apply final_df_rows in Hfinal. subst final.
  intros p Hin. unfold Train.dropna in Hin. apply filter_In in Hin.
  destruct Hin as (Hin & Hcomplete). split; [exact Hcomplete|].
  apply add_columns_in in Hin as (Hsrc & Hh & Hd).
  unfold Train.dropna_pm25 in Hsrc. apply filter_In in Hsrc.
  repeat split; [apply Hsrc | exact Hh | exact Hd].
Qed.

Lemma training_set_is_clean_witness :
  (100 <= 100)%nat /\
  forall p,
    In p (Train.dropna (Train.add_columns (Sample.hourly 101))) ->
    Train.complete p = true /\
    In (Train.source p) (Sample.hourly 101) /\
    Train.hour p = DT.hour_of (Train.date (Train.source p)) /\
    Train.day_of_week p = DT.weekday (Train.date (Train.source p)).
Proof.
  apply (training_set_is_clean (Sample.hourly 101)
           (Train.dropna (Train.add_columns (Sample.hourly 101)))).
  vm_compute. reflexivity.
Defined.

(** X18. The last row never reaches the training set, so 100 rows with
    a PM2.5 value are not enough: with at most 100 such rows in the
    input frame the script exits with status 1 and fits nothing. *)
Theorem training_needs_101_rows (df : list Train.row) :
  (List.length (Train.dropna_pm25 df) <= 100)%nat ->
  Train.train df = Train.Exit 1.
Proof.
  intros Hlen. unfold Train.train.
  destruct (Train.final_df df) as [final|] eqn:Hfinal; [|reflexivity].
  apply final_df_rows in Hfinal. subst final.
  pose proof (dropna_length (Train.dropna_pm25 df)) as Hdrop.
  assert (Hlt : (List.length
                   (Train.dropna (Train.add_columns (Train.dropna_pm25 df)))
                 <? 100)%nat = true) by (apply Nat.ltb_lt; lia).
  now rewrite Hlt.
Qed.

Lemma training_needs_101_rows_witness :
  Train.train (Sample.hourly 100) = Train.Exit 1.
Proof.
  apply (training_needs_101_rows (Sample.hourly 100)).
  apply Nat.leb_le. vm_compute. reflexivity.
Defined.
